(** * Model configuration resolution (mflux/config/model_config.py)

    A shallow embedding of [ModelConfig], of the [AVAILABLE_MODELS] table and
    of the resolver [ModelConfig.from_name], followed by the properties of the
    resolver: exact matches, hint validation, substring inference in priority
    order, and the synthesis of a record for a custom model name. *)

From Stdlib Require Import List String Ascii ZArith Lia Bool.
From Stdlib Require Import Sorting.Sorted Sorting.Permutation.
Import ListNotations.
Open Scope string_scope.
Open Scope Z_scope.

(** ** Python values used by the module *)

Module Py.

(** Truth value of a [str | None]: [None] and the empty string are falsy. *)
Definition truthy (o : option string) : bool :=
  match o with
  | None => false
  | Some s => negb (s =? EmptyString)%string
  end.

(** [x == y] for [x : str] and [y : str | None]. *)
Definition eq_opt (x : string) (y : option string) : bool :=
  match y with
  | None => false
  | Some s => (x =? s)%string
  end.

(** [x == y] for two [str | None] values. *)
Definition opt_eqb (x y : option string) : bool :=
  match x, y with
  | None, None => true
  | Some a, Some b => (a =? b)%string
  | _, _ => false
  end.

(** [s.startswith(a)]. *)
Fixpoint startswith (a s : string) : bool :=
  match a, s with
  | EmptyString, _ => true
  | String _ _, EmptyString => false
  | String c a', String d s' => Ascii.eqb c d && startswith a' s'
  end.

(** [a in s] for two strings: [a] occurs in [s] as a contiguous block. *)
Fixpoint contains (a s : string) : bool :=
  startswith a s ||
  match s with
  | EmptyString => false
  | String _ s' => contains a s'
  end.

(** [x in l] for a list of [str | None]. *)
Definition mem (x : option string) (l : list (option string)) : bool :=
  existsb (opt_eqb x) l.

(** One hexadecimal digit, in lower case as [repr] prints it. *)
Definition hex_digit (n : N) : ascii :=
  if (n <? 10)%N then ascii_of_N (48 + n) else ascii_of_N (87 + n).

(** [repr] of one character of a string delimited by [q]. Bytes from 128 up
    are the UTF-8 encoding of a character beyond ASCII and are kept. *)
Definition repr_char (q c : ascii) : string :=
  let n := N_of_ascii c in
  if Ascii.eqb c q || Ascii.eqb c "\"%char then String "\"%char (String c EmptyString)
  else if (n =? 9)%N then "\t"
  else if (n =? 10)%N then "\n"
  else if (n =? 13)%N then "\r"
  else if (n <? 32)%N || (n =? 127)%N then
    String "\"%char (String "x"%char
      (String (hex_digit (n / 16)) (String (hex_digit (n mod 16)) EmptyString)))
  else String c EmptyString.

Fixpoint has_char (c : ascii) (s : string) : bool :=
  match s with
  | EmptyString => false
  | String d s' => Ascii.eqb c d || has_char c s'
  end.

Fixpoint repr_body (q : ascii) (s : string) : string :=
  match s with
  | EmptyString => EmptyString
  | String c s' => repr_char q c ++ repr_body q s'
  end.

(** [repr(s)]: single quotes, unless the string holds a single quote and no
    double quote. *)
Definition repr_str (s : string) : string :=
  let q := if has_char "'"%char s && negb (has_char (ascii_of_N 34) s)
           then ascii_of_N 34 else "'"%char in
  String q (repr_body q s ++ String q EmptyString).

Definition repr_opt (o : option string) : string :=
  match o with
  | None => "None"
  | Some s => repr_str s
  end.

Fixpoint join (sep : string) (l : list string) : string :=
  match l with
  | [] => EmptyString
  | [x] => x
  | x :: l' => x ++ sep ++ join sep l'
  end.

(** [repr(l)], which is also what an f-string prints for a list. *)
Definition repr_list (l : list (option string)) : string :=
  "[" ++ join ", " (map repr_opt l) ++ "]".

End Py.

(** ** The configuration record *)

Record ModelConfig : Type := mkModelConfig {
  alias : option string;
  model_name : string;
  base_model : option string;
  controlnet_model : option string;
  num_train_steps : Z;
  max_sequence_length : Z;
  supports_guidance : bool;
  requires_sigma_shift : bool;
  priority : Z
}.

Definition x_embedder_input_dim (self : ModelConfig) : Z :=
  if Py.opt_eqb (alias self) (Some "dev-fill") then 384
  else if Py.opt_eqb (alias self) (Some "dev-depth") then 128
  else 64.

Definition is_canny (self : ModelConfig) : bool :=
  Py.opt_eqb (alias self) (Some "dev-controlnet-canny")
  || Py.opt_eqb (alias self) (Some "schnell-controlnet-canny").

(** ** The registry, in the order the dict literal declares its entries *)

Definition AVAILABLE_MODELS : list (string * ModelConfig) :=
  [ ("schnell",
     mkModelConfig (Some "schnell") "black-forest-labs/FLUX.1-schnell"
       None None 1000 256 false false 2);
    ("dev",
     mkModelConfig (Some "dev") "black-forest-labs/FLUX.1-dev"
       None None 1000 512 true true 1);
    ("dev-fill",
     mkModelConfig (Some "dev-fill") "black-forest-labs/FLUX.1-Fill-dev"
       None None 1000 512 true true 0);
    ("dev-depth",
     mkModelConfig (Some "dev-depth") "black-forest-labs/FLUX.1-Depth-dev"
       None None 1000 512 true true 4);
    ("dev-redux",
     mkModelConfig (Some "dev-redux") "black-forest-labs/FLUX.1-Redux-dev"
       None None 1000 512 true true 3);
    ("dev-controlnet-canny",
     mkModelConfig (Some "dev-controlnet-canny") "black-forest-labs/FLUX.1-dev"
       None (Some "InstantX/FLUX.1-dev-Controlnet-Canny") 1000 512 true true 5);
    ("schnell-controlnet-canny",
     mkModelConfig (Some "schnell-controlnet-canny") "black-forest-labs/FLUX.1-schnell"
       None (Some "InstantX/FLUX.1-dev-Controlnet-Canny") 1000 256 false false 6);
    ("dev-controlnet-upscaler",
     mkModelConfig (Some "dev-controlnet-upscaler") "black-forest-labs/FLUX.1-dev"
       None (Some "jasperai/Flux.1-dev-Controlnet-Upscaler") 1000 512 false false 7);
    ("xulf-s",
     mkModelConfig (Some "xulf-s") "cocktailpeanut/xulf-s"
       None None 1000 256 false false 9);
    ("xulf-d",
     mkModelConfig (Some "f-lite") "cocktailpeanut/xulf-d"
       None None 1000 512 true true 8);
    ("f-lite",
     mkModelConfig (Some "f-lite") "Freepik/flux.1-lite-8B"
       None None 1000 512 true true 10);
    ("shuttle-3",
     mkModelConfig (Some "shuttle-3") "shuttleai/shuttle-3-diffusion"
       None None 1000 256 false false 11) ].

(** [AVAILABLE_MODELS.values()] *)
Definition values (d : list (string * ModelConfig)) : list ModelConfig :=
  map snd d.

(** [AVAILABLE_MODELS[key]], as the accessors [dev()], [schnell()], ... use it. *)
Fixpoint lookup (key : string) (d : list (string * ModelConfig)) : option ModelConfig :=
  match d with
  | [] => None
  | (k, v) :: d' => if (key =? k)%string then Some v else lookup key d'
  end.

(** ** [sorted(..., key=lambda x: x.priority)]

    Python's sort is stable; so is this insertion sort, which puts an element
    in front of the first one whose key is not smaller. *)

Fixpoint insert_by_priority (x : ModelConfig) (l : list ModelConfig) : list ModelConfig :=
  match l with
  | [] => [x]
  | y :: l' =>
      if priority x <=? priority y then x :: y :: l'
      else y :: insert_by_priority x l'
  end.

Fixpoint sorted_by_priority (l : list ModelConfig) : list ModelConfig :=
  match l with
  | [] => []
  | x :: l' => insert_by_priority x (sorted_by_priority l')
  end.

(** ** The resolver *)

(** Modelled from the spec: the classes [InvalidBaseModel] and
    [ModelConfigError] of [mflux.error.error] are imported by the module and
    declared elsewhere; the spec gives them as two distinct, catchable error
    kinds, each carrying a message. [AttributeError] is what Python raises on
    [default_base.alias] when [default_base] is [None]. *)
Inductive error : Type :=
  | InvalidBaseModel (msg : string)
  | ModelConfigError (msg : string)
  | AttributeError (msg : string).

Inductive result : Type :=
  | Return (config : ModelConfig)
  | Raise (e : error).

(** Step 0: the records with [base_model is None], sorted by priority. *)
Definition is_base (m : ModelConfig) : bool :=
  match base_model m with
  | None => true
  | Some _ => false
  end.

Definition base_models_of (d : list (string * ModelConfig)) : list ModelConfig :=
  sorted_by_priority (filter is_base (values d)).

(** [name in (b.alias, b.model_name)] *)
Definition names_base (name : string) (b : ModelConfig) : bool :=
  Py.eq_opt name (alias b) || (name =? model_name b)%string.

(** [base_model in (b.alias, b.model_name)], for the optional hint. *)
Definition hint_names_base (hint : option string) (b : ModelConfig) : bool :=
  Py.opt_eqb hint (alias b) || Py.opt_eqb hint (Some (model_name b)).

(** [b.alias and b.alias in model_name] *)
Definition alias_within (name : string) (b : ModelConfig) : bool :=
  match alias b with
  | None => false
  | Some a => negb (a =? EmptyString)%string && Py.contains a name
  end.

(** Step 2: [allowed_names], extended with each base's alias and model name. *)
Definition allowed_names (bases : list ModelConfig) : list (option string) :=
  flat_map (fun b => [alias b; Some (model_name b)]) bases.

(** Step 4: the record built from the selected base. *)
Definition construct (default_base : ModelConfig) (name : string) : ModelConfig :=
  {| alias := alias default_base;
     model_name := name;
     base_model := Some (model_name default_base);
     controlnet_model := controlnet_model default_base;
     num_train_steps := num_train_steps default_base;
     max_sequence_length := max_sequence_length default_base;
     supports_guidance := supports_guidance default_base;
     requires_sigma_shift := requires_sigma_shift default_base;
     priority := priority default_base |}.

(** [from_name] over a given table; [find] is the first match of the [for]
    loop of step 1 and of the two [next(...)] of step 3. The parameters
    [model_name] and [base_model] of the source are [name] and [hint] here,
    where the two names are taken by the fields of the record. *)
Definition from_name_in (d : list (string * ModelConfig))
    (name : string) (hint : option string) : result :=
  let base_models := base_models_of d in
  match find (names_base name) base_models with
  | Some base => Return base
  | None =>
      let allowed := allowed_names base_models in
      if Py.truthy hint && negb (Py.mem hint allowed) then
        Raise (InvalidBaseModel
                 ("Invalid base_model. Choose one of " ++ Py.repr_list allowed))
      else if Py.truthy hint then
        match find (hint_names_base hint) base_models with
        | Some default_base => Return (construct default_base name)
        | None => Raise (AttributeError "'NoneType' object has no attribute 'alias'")
        end
      else
        match find (alias_within name) base_models with
        | Some default_base => Return (construct default_base name)
        | None => Raise (ModelConfigError ("Cannot infer base_model from " ++ name))
        end
  end.

Definition base_models : list ModelConfig := base_models_of AVAILABLE_MODELS.

Definition from_name (name : string) (hint : option string) : result :=
  from_name_in AVAILABLE_MODELS name hint.

(** ** The accessors

    Each static method returns [AVAILABLE_MODELS[key]] for a fixed key;
    [None] stands for the [KeyError] of a missing key. [lru_cache] keeps the
    returned object and changes no value. *)

Definition dev : option ModelConfig := lookup "dev" AVAILABLE_MODELS.
Definition dev_fill : option ModelConfig := lookup "dev-fill" AVAILABLE_MODELS.
Definition dev_depth : option ModelConfig := lookup "dev-depth" AVAILABLE_MODELS.
Definition dev_redux : option ModelConfig := lookup "dev-redux" AVAILABLE_MODELS.
Definition dev_controlnet_canny : option ModelConfig :=
  lookup "dev-controlnet-canny" AVAILABLE_MODELS.
Definition schnell_controlnet_canny : option ModelConfig :=
  lookup "schnell-controlnet-canny" AVAILABLE_MODELS.
Definition dev_controlnet_upscaler : option ModelConfig :=
  lookup "dev-controlnet-upscaler" AVAILABLE_MODELS.
Definition schnell : option ModelConfig := lookup "schnell" AVAILABLE_MODELS.


(** * Properties *)

(** ** Strings *)

Module PyFacts.

Lemma truthy_Some (h : string) :
  Py.truthy (Some h) = true <-> h <> EmptyString.
Proof.
  unfold Py.truthy. rewrite negb_true_iff. split.
  - intros E ->. discriminate E.
  - intros N. apply String.eqb_neq. exact N.
Qed.

Lemma eq_opt_true (x : string) (y : option string) :
  Py.eq_opt x y = true <-> y = Some x.
Proof.
  destruct y as [s|]; simpl.
  - rewrite String.eqb_eq. split; [intros -> | intros [= ->]]; reflexivity.
  - split; discriminate.
Qed.

Lemma opt_eqb_true (x y : option string) :
  Py.opt_eqb x y = true <-> x = y.
Proof.
  destruct x as [a|], y as [b|]; simpl; try (split; discriminate).
  - rewrite String.eqb_eq. split; [intros -> | intros [= ->]]; reflexivity.
  - split; reflexivity.
Qed.

Lemma opt_eqb_false (x y : option string) :
  Py.opt_eqb x y = false <-> x <> y.
Proof.
  rewrite <- opt_eqb_true. destruct (Py.opt_eqb x y); split; congruence.
Qed.

Lemma startswith_iff (a s : string) :
  Py.startswith a s = true <-> exists q, s = a ++ q.
Proof.
  revert s. induction a as [|c a IH]; intros s; simpl.
  - split; [intros _; exists s; reflexivity | reflexivity].
  - destruct s as [|d s].
    + split; [discriminate | intros [q E]; discriminate E].
    + rewrite andb_true_iff, Ascii.eqb_eq, IH. split.
      * intros [-> [q ->]]. exists q. reflexivity.
      * intros [q E]. injection E as -> ->. split; [reflexivity | exists q; reflexivity].
Qed.

(** [a in s] holds exactly when [s] is [a] with something before and after. *)
Lemma contains_iff (a s : string) :
  Py.contains a s = true <-> exists p q, s = p ++ a ++ q.
Proof.
  induction s as [|d s IH]; simpl; rewrite orb_true_iff, startswith_iff.
  - split.
    + intros [[q E] | F]; [exists EmptyString, q; exact E | discriminate F].
    + intros [p [q E]]. left. destruct p as [|c p]; [exists q; exact E | discriminate E].
  - rewrite IH. split.
    + intros [[q E] | [p [q E]]].
      * exists EmptyString, q. exact E.
      * exists (String d p), q. simpl. rewrite E. reflexivity.
    + intros [p [q E]]. destruct p as [|c p]; simpl in E.
      * left. exists q. exact E.
      * right. injection E as _ E. exists p, q. exact E.
Qed.

Lemma mem_iff (x : option string) (l : list (option string)) :
  Py.mem x l = true <-> In x l.
Proof.
  unfold Py.mem. rewrite existsb_exists. split.
  - intros [y [I E]]. apply opt_eqb_true in E. subst y. exact I.
  - intros I. exists x. split; [exact I | apply opt_eqb_true; reflexivity].
Qed.

End PyFacts.

(** ** The stable sort on priorities *)

Definition by_priority (a b : ModelConfig) : Prop := priority a <= priority b.

Lemma insert_by_priority_perm (x : ModelConfig) (l : list ModelConfig) :
  Permutation (x :: l) (insert_by_priority x l).
Proof.
  induction l as [|y l IH]; simpl.
  - apply Permutation_refl.
  - destruct (priority x <=? priority y).
    + apply Permutation_refl.
    + eapply perm_trans; [apply perm_swap | apply perm_skip, IH].
Qed.

Lemma sorted_by_priority_perm (l : list ModelConfig) :
  Permutation l (sorted_by_priority l).
Proof.
  induction l as [|x l IH]; simpl.
  - apply perm_nil.
  - eapply perm_trans; [apply perm_skip, IH | apply insert_by_priority_perm].
Qed.

Lemma sorted_by_priority_In (l : list ModelConfig) (m : ModelConfig) :
  In m (sorted_by_priority l) <-> In m l.
Proof.
  split; apply Permutation_in;
    [apply Permutation_sym |]; apply sorted_by_priority_perm.
Qed.

Lemma insert_by_priority_sorted (x : ModelConfig) (l : list ModelConfig) :
  StronglySorted by_priority l -> StronglySorted by_priority (insert_by_priority x l).
Proof.
  induction 1 as [|y l S IH F]; simpl.
  - constructor; constructor.
  - destruct (priority x <=? priority y) eqn:L.
    + apply Z.leb_le in L. constructor.
      * constructor; assumption.
      * constructor; [exact L |].
        eapply Forall_impl; [| exact F]. unfold by_priority. intros. lia.
    + apply Z.leb_gt in L. constructor; [exact IH |].
      eapply Permutation_Forall; [apply insert_by_priority_perm |].
      constructor; [unfold by_priority; lia | exact F].
Qed.

Lemma sorted_by_priority_sorted (l : list ModelConfig) :
  StronglySorted by_priority (sorted_by_priority l).
Proof.
  induction l as [|x l IH]; simpl.
  - constructor.
  - apply insert_by_priority_sorted, IH.
Qed.

(** Stability: the records of any one priority keep their relative order. *)
Lemma insert_by_priority_stable (k : Z) (x : ModelConfig) (l : list ModelConfig) :
  filter (fun m => priority m =? k) (insert_by_priority x l)
  = filter (fun m => priority m =? k) (x :: l).
Proof.
  induction l as [|y l IH]; [reflexivity |].
  simpl insert_by_priority. destruct (priority x <=? priority y) eqn:L; [reflexivity |].
  apply Z.leb_gt in L. simpl in *. rewrite IH.
  destruct (priority x =? k) eqn:X, (priority y =? k) eqn:Y;
    try reflexivity.
  apply Z.eqb_eq in X, Y. lia.
Qed.

Lemma sorted_by_priority_stable (k : Z) (l : list ModelConfig) :
  filter (fun m => priority m =? k) (sorted_by_priority l)
  = filter (fun m => priority m =? k) l.
Proof.
  induction l as [|x l IH]; [reflexivity |].
  simpl sorted_by_priority. rewrite insert_by_priority_stable.
  simpl. rewrite IH. reflexivity.
Qed.

(** ** First match of a scan *)

Section Scan.

Variable f : ModelConfig -> bool.

(** [b] is the first element of [l] that satisfies [f]. *)
Definition first_match (l : list ModelConfig) (b : ModelConfig) : Prop :=
  exists l1 l2, l = (l1 ++ b :: l2)%list /\ f b = true /\ Forall (fun x => f x = false) l1.

Lemma find_first_match (l : list ModelConfig) (b : ModelConfig) :
  find f l = Some b <-> first_match l b.
Proof.
  induction l as [|y l IH]; simpl.
  - split; [discriminate |].
    intros [l1 [l2 [E _]]]. destruct l1; discriminate E.
  - destruct (f y) eqn:Fy.
    + split.
      * intros [= ->]. exists [], l. repeat split; [exact Fy | constructor].
      * intros [l1 [l2 [E [Fb N]]]]. destruct l1 as [|z l1]; simpl in E.
        -- injection E as -> _. reflexivity.
        -- injection E as -> _. inversion N; congruence.
    + rewrite IH. split.
      * intros [l1 [l2 [E [Fb N]]]]. exists (y :: l1), l2.
        repeat split; [simpl; rewrite E; reflexivity | exact Fb | constructor; assumption].
      * intros [l1 [l2 [E [Fb N]]]]. destruct l1 as [|z l1]; simpl in E.
        -- injection E as -> _. congruence.
        -- injection E as -> E. exists l1, l2.
           repeat split; [exact E | exact Fb | inversion N; assumption].
Qed.

Lemma find_none_iff (l : list ModelConfig) :
  find f l = None <-> forall x, In x l -> f x = false.
Proof.
  split; [apply find_none |].
  intros H. destruct (find f l) as [b|] eqn:E; [| reflexivity].
  apply find_some in E. destruct E as [I Fb]. rewrite (H b I) in Fb. discriminate Fb.
Qed.

Lemma find_is_Some (l : list ModelConfig) (x : ModelConfig) :
  In x l -> f x = true -> exists b, find f l = Some b.
Proof.
  intros I Fx. destruct (find f l) as [b|] eqn:E; [exists b; reflexivity |].
  rewrite (find_none _ _ E x I) in Fx. discriminate Fx.
Qed.

(** In a list sorted by priority the first match has the least priority
    of all matches. *)
Lemma first_match_least (l : list ModelConfig) (b : ModelConfig) :
  StronglySorted by_priority l -> first_match l b ->
  forall x, In x l -> f x = true -> priority b <= priority x.
Proof.
  intros S [l1 [l2 [-> [Fb N]]]] x I Fx.
  apply in_app_or in I. destruct I as [I | [-> | I]].
  - rewrite Forall_forall in N. rewrite (N x I) in Fx. discriminate Fx.
  - lia.
  - clear N. induction l1 as [|z l1 IH]; simpl in S.
    + inversion S as [|? ? _ F]; subst. rewrite Forall_forall in F. exact (F x I).
    + inversion S; subst. apply IH. assumption.
Qed.

End Scan.

(** ** The resolver over any table *)

Section Resolver.

Variable d : list (string * ModelConfig).

Lemma base_models_of_In (m : ModelConfig) :
  In m (base_models_of d) <-> In m (values d) /\ base_model m = None.
Proof.
  unfold base_models_of. rewrite sorted_by_priority_In, filter_In.
  unfold is_base. destruct (base_model m); intuition congruence.
Qed.

Lemma base_models_of_sorted : StronglySorted by_priority (base_models_of d).
Proof. apply sorted_by_priority_sorted. Qed.

Lemma base_models_of_stable (k : Z) :
  filter (fun m => priority m =? k) (base_models_of d)
  = filter (fun m => priority m =? k) (filter is_base (values d)).
Proof. apply sorted_by_priority_stable. Qed.

Lemma names_base_iff (name : string) (b : ModelConfig) :
  names_base name b = true <-> alias b = Some name \/ model_name b = name.
Proof.
  unfold names_base. rewrite orb_true_iff, PyFacts.eq_opt_true, String.eqb_eq.
  intuition congruence.
Qed.

Lemma alias_within_iff (name : string) (b : ModelConfig) :
  alias_within name b = true <->
  exists a, alias b = Some a /\ a <> EmptyString /\ exists p q, name = p ++ a ++ q.
Proof.
  unfold alias_within. destruct (alias b) as [a|].
  - rewrite andb_true_iff, negb_true_iff, PyFacts.contains_iff, String.eqb_neq. split.
    + intros [N C]. exists a. repeat split; assumption.
    + intros [a' [[= <-] [N C]]]. split; assumption.
  - split; [discriminate | intros [a [E _]]; discriminate E].
Qed.

(** The allowed names are the aliases and model names of the bases. *)
Lemma allowed_names_In (bases : list ModelConfig) (h : string) :
  In (Some h) (allowed_names bases) <->
  exists b, In b bases /\ names_base h b = true.
Proof.
  unfold allowed_names. rewrite in_flat_map. split.
  - intros [b [I [E | [E | []]]]]; exists b; (split; [exact I |]);
      apply names_base_iff; [left | right]; congruence.
  - intros [b [I N]]. exists b. split; [exact I |].
    apply names_base_iff in N. destruct N as [E | E]; simpl.
    + left. exact E.
    + right. left. congruence.
Qed.

(** Step 1 decides alone when it finds a base: the hint is not looked at. *)
Lemma from_name_in_exact (name : string) (hint : option string) (b : ModelConfig) :
  find (names_base name) (base_models_of d) = Some b ->
  from_name_in d name hint = Return b.
Proof. intros E. unfold from_name_in. rewrite E. reflexivity. Qed.

Lemma from_name_in_invalid (name h : string) :
  find (names_base name) (base_models_of d) = None ->
  h <> EmptyString ->
  ~ In (Some h) (allowed_names (base_models_of d)) ->
  from_name_in d name (Some h)
  = Raise (InvalidBaseModel
             ("Invalid base_model. Choose one of "
              ++ Py.repr_list (allowed_names (base_models_of d)))).
Proof.
  intros E N A. unfold from_name_in. rewrite E.
  apply PyFacts.truthy_Some in N. rewrite N.
  rewrite <- PyFacts.mem_iff in A. apply not_true_is_false in A. rewrite A.
  reflexivity.
Qed.

Lemma from_name_in_hint (name h : string) :
  find (names_base name) (base_models_of d) = None ->
  h <> EmptyString ->
  In (Some h) (allowed_names (base_models_of d)) ->
  exists b, find (names_base h) (base_models_of d) = Some b
            /\ from_name_in d name (Some h) = Return (construct b name).
Proof.
  intros E N A. unfold from_name_in. rewrite E.
  apply PyFacts.truthy_Some in N. rewrite N.
  pose proof A as M. rewrite <- PyFacts.mem_iff in M. rewrite M. simpl.
  change (hint_names_base (Some h)) with (names_base h).
  apply allowed_names_In in A. destruct A as [b0 [I F]].
  destruct (find_is_Some _ _ _ I F) as [b Fb].
  exists b. rewrite Fb. split; reflexivity.
Qed.

Lemma from_name_in_infer (name : string) (hint : option string) :
  find (names_base name) (base_models_of d) = None ->
  Py.truthy hint = false ->
  from_name_in d name hint
  = match find (alias_within name) (base_models_of d) with
    | Some b => Return (construct b name)
    | None => Raise (ModelConfigError ("Cannot infer base_model from " ++ name))
    end.
Proof.
  intros E T. unfold from_name_in. rewrite E, T. reflexivity.
Qed.


End Resolver.

(** ** The registry *)

Lemma base_models_In (m : ModelConfig) :
  In m base_models <-> In m (values AVAILABLE_MODELS) /\ base_model m = None.
Proof. apply base_models_of_In. Qed.

Lemma base_models_sorted : StronglySorted by_priority base_models.
Proof. apply base_models_of_sorted. Qed.

(** Every record of the table is a base model, so the scan runs over all
    twelve of them, in this order. *)
Lemma base_models_order :
  map (fun b => (alias b, priority b)) base_models
  = [ (Some "dev-fill", 0); (Some "dev", 1); (Some "schnell", 2);
      (Some "dev-redux", 3); (Some "dev-depth", 4);
      (Some "dev-controlnet-canny", 5); (Some "schnell-controlnet-canny", 6);
      (Some "dev-controlnet-upscaler", 7); (Some "f-lite", 8);
      (Some "xulf-s", 9); (Some "f-lite", 10); (Some "shuttle-3", 11) ].
Proof. reflexivity. Qed.

Lemma allowed_names_nonempty :
  ~ In (Some EmptyString) (allowed_names base_models).
Proof.
  rewrite <- PyFacts.mem_iff. vm_compute. discriminate.
Qed.

(** Membership in a closed list, by running down the list. *)
Ltac in_closed_list :=
  simpl; repeat first [left; reflexivity | right].

(** One goal per record of the table. *)
Ltac each_record H :=
  simpl in H; repeat (destruct H as [<- | H]); [.. | contradiction H].

(** ** Exact matches *)

(** C1, as stated, fails: the record declared under the key
    [dev-controlnet-canny] is a base model, yet resolving its own [model_name]
    returns the plain [dev] record, which has the same [model_name] and a
    lower priority number. *)
Lemma from_name_model_name_not_own_record :
  let B := mkModelConfig (Some "dev-controlnet-canny") "black-forest-labs/FLUX.1-dev"
             None (Some "InstantX/FLUX.1-dev-Controlnet-Canny") 1000 512 true true 5 in
  In B (values AVAILABLE_MODELS)
  /\ base_model B = None
  /\ from_name (model_name B) None <> Return B.
Proof.
  intros B. repeat split.
  - in_closed_list.
  - vm_compute. discriminate.
Qed.

(** C1, amended. For every registry entry [B] with [base_model = None],
    [from_name(B.alias)] and [from_name(B.model_name)], with no hint, return a
    registry record unchanged (a base model, never a synthesized copy): one
    that carries the requested alias, respectively the requested model name,
    and whose priority number is at most that of [B]. It is [B] itself for the
    alias when no other entry carries that alias, and for the model name when
    no entry of the same model name has a lower priority number. *)
Theorem from_name_exact_match (B : ModelConfig) :
  In B (values AVAILABLE_MODELS) -> base_model B = None ->
  (forall a, alias B = Some a ->
     exists R, from_name a None = Return R
       /\ In R (values AVAILABLE_MODELS) /\ base_model R = None
       /\ alias R = Some a /\ priority R <= priority B
       /\ ((forall B', In B' (values AVAILABLE_MODELS) -> alias B' = Some a -> B' = B)
           -> R = B))
  /\ (exists R, from_name (model_name B) None = Return R
       /\ In R (values AVAILABLE_MODELS) /\ base_model R = None
       /\ model_name R = model_name B /\ priority R <= priority B
       /\ ((forall B', In B' (values AVAILABLE_MODELS) ->
              model_name B' = model_name B -> priority B <= priority B')
           -> R = B)).
Proof.
  intros I _. each_record I.
  all: split; [intros a [= <-] |].
  all: eexists; split; [vm_compute; reflexivity |].
  all: split; [in_closed_list |].
  all: split; [reflexivity |].
  all: split; [reflexivity |].
  all: split; [vm_compute; discriminate |].
  all: intros U.
  all: try reflexivity.
  all: match goal with
       | |- ?R = _ =>
           first [ apply U; [in_closed_list | reflexivity]
                 | exfalso; assert (L := U R); simpl in L;
                   assert (L' := L ltac:(in_closed_list) eq_refl);
                   vm_compute in L'; apply L'; reflexivity ]
       end.
Qed.

Lemma from_name_exact_match_witness :
  let B := mkModelConfig (Some "dev") "black-forest-labs/FLUX.1-dev"
             None None 1000 512 true true 1 in
  In B (values AVAILABLE_MODELS) /\ base_model B = None /\
  (forall a, alias B = Some a ->
     exists R, from_name a None = Return R
       /\ In R (values AVAILABLE_MODELS) /\ base_model R = None
       /\ alias R = Some a /\ priority R <= priority B
       /\ ((forall B', In B' (values AVAILABLE_MODELS) -> alias B' = Some a -> B' = B)
           -> R = B))
  /\ (exists R, from_name (model_name B) None = Return R
       /\ In R (values AVAILABLE_MODELS) /\ base_model R = None
       /\ model_name R = model_name B /\ priority R <= priority B
       /\ ((forall B', In B' (values AVAILABLE_MODELS) ->
              model_name B' = model_name B -> priority B <= priority B')
           -> R = B)).
Proof.
  intros B.
  assert (I : In B (values AVAILABLE_MODELS)) by (simpl; right; left; reflexivity).
  assert (N : base_model B = None) by reflexivity.
  split; [exact I | split; [exact N |]].
  exact (from_name_exact_match B I N).
Defined.

(** ** Synthesis *)

(** The base that steps 2 and 3 select for a name that is no exact match:
    with a hint that counts as given and is among the allowed names, the
    first base named by the hint; with no hint, the first base whose alias is
    a non-empty part of the name. *)
Definition selects (name : string) (hint : option string) (b : ModelConfig) : Prop :=
  (exists h, hint = Some h /\ Py.truthy hint = true
             /\ In (Some h) (allowed_names base_models)
             /\ first_match (names_base h) base_models b)
  \/ (Py.truthy hint = false /\ first_match (alias_within name) base_models b).

(** C2. When the requested name is no exact match and a base is selected, by
    a validated hint or by substring inference, the returned record has the
    requested name as [model_name], the selected base's [model_name] as
    [base_model], and every other field equal to the selected base's. *)
Theorem from_name_synthesis (name : string) (hint : option string) (b : ModelConfig) :
  find (names_base name) base_models = None ->
  selects name hint b ->
  exists r, from_name name hint = Return r
    /\ model_name r = name
    /\ base_model r = Some (model_name b)
    /\ alias r = alias b
    /\ controlnet_model r = controlnet_model b
    /\ num_train_steps r = num_train_steps b
    /\ max_sequence_length r = max_sequence_length b
    /\ supports_guidance r = supports_guidance b
    /\ requires_sigma_shift r = requires_sigma_shift b
    /\ priority r = priority b.
Proof.
  intros E S. exists (construct b name). split; [| repeat split].
  unfold from_name. destruct S as [[h [-> [T [A F]]]] | [T F]].
  - apply PyFacts.truthy_Some in T.
    destruct (from_name_in_hint AVAILABLE_MODELS name h E T A) as [b' [Fb ->]].
    apply find_first_match in F. fold base_models in Fb. congruence.
  - rewrite (from_name_in_infer AVAILABLE_MODELS name hint E T).
    apply find_first_match in F. fold base_models. rewrite F. reflexivity.
Qed.

Lemma from_name_synthesis_witness :
  let dev_record := mkModelConfig (Some "dev") "black-forest-labs/FLUX.1-dev"
                      None None 1000 512 true true 1 in
  find (names_base "some-custom-name-dev-v2") base_models = None
  /\ selects "some-custom-name-dev-v2" None dev_record
  /\ exists r, from_name "some-custom-name-dev-v2" None = Return r
    /\ model_name r = "some-custom-name-dev-v2"
    /\ base_model r = Some "black-forest-labs/FLUX.1-dev"
    /\ alias r = Some "dev"
    /\ controlnet_model r = None
    /\ num_train_steps r = 1000
    /\ max_sequence_length r = 512
    /\ supports_guidance r = true
    /\ requires_sigma_shift r = true
    /\ priority r = 1.
Proof.
  intros dev_record.
  assert (E : find (names_base "some-custom-name-dev-v2") base_models = None)
    by reflexivity.
  assert (S : selects "some-custom-name-dev-v2" None dev_record).
  { right. split; [reflexivity |]. apply find_first_match. reflexivity. }
  split; [exact E | split; [exact S |]].
  exact (from_name_synthesis "some-custom-name-dev-v2" None dev_record E S).
Defined.

(** ** Inference from the name *)

(** [b.alias] is a non-empty substring of [name]. *)
Definition alias_part_of (name : string) (b : ModelConfig) : Prop :=
  exists a, alias b = Some a /\ a <> EmptyString /\ exists p q, name = p ++ a ++ q.

(** C3. With no hint and a name that is no exact match, the selected base is
    the first record, in the list of all records with [base_model = None]
    sorted by ascending priority (stably, so ties keep their declaration
    order), whose alias is a non-empty substring of the name; of all bases
    whose alias is such a substring it has the least priority number. *)
Theorem from_name_infers_in_priority_order (name : string) (b0 : ModelConfig) :
  find (names_base name) base_models = None ->
  In b0 (values AVAILABLE_MODELS) -> base_model b0 = None -> alias_part_of name b0 ->
  exists b,
    from_name name None = Return (construct b name)
    /\ first_match (alias_within name) base_models b
    /\ alias_part_of name b
    /\ (forall b', In b' (values AVAILABLE_MODELS) -> base_model b' = None ->
                   alias_part_of name b' -> priority b <= priority b')
    /\ StronglySorted by_priority base_models
    /\ (forall m, In m base_models <-> In m (values AVAILABLE_MODELS) /\ base_model m = None)
    /\ (forall k, filter (fun m => priority m =? k) base_models
                  = filter (fun m => priority m =? k)
                      (filter is_base (values AVAILABLE_MODELS))).
Proof.
  intros E I0 N0 P0.
  assert (J0 : In b0 base_models) by (apply base_models_In; split; assumption).
  apply alias_within_iff in P0.
  destruct (find_is_Some _ _ _ J0 P0) as [b Fb].
  exists b. unfold from_name.
  rewrite (from_name_in_infer AVAILABLE_MODELS name None E eq_refl).
  fold base_models. rewrite Fb. apply find_first_match in Fb.
  split; [reflexivity |]. split; [exact Fb |]. split.
  { destruct Fb as [_ [_ [_ [Fb _]]]]. apply alias_within_iff. exact Fb. }
  split.
  { intros b' I' N' P'.
    apply (first_match_least (alias_within name) base_models b base_models_sorted Fb).
    - apply base_models_In. split; assumption.
    - apply alias_within_iff. exact P'. }
  split; [exact base_models_sorted |].
  split; [exact base_models_In |].
  intros k. apply base_models_of_stable.
Qed.

Lemma from_name_infers_in_priority_order_witness :
  let schnell_record := mkModelConfig (Some "schnell") "black-forest-labs/FLUX.1-schnell"
                          None None 1000 256 false false 2 in
  find (names_base "my-schnell-dev-fill") base_models = None
  /\ In schnell_record (values AVAILABLE_MODELS)
  /\ base_model schnell_record = None
  /\ alias_part_of "my-schnell-dev-fill" schnell_record
  /\ exists b,
       from_name "my-schnell-dev-fill" None = Return (construct b "my-schnell-dev-fill")
       /\ first_match (alias_within "my-schnell-dev-fill") base_models b
       /\ alias_part_of "my-schnell-dev-fill" b
       /\ (forall b', In b' (values AVAILABLE_MODELS) -> base_model b' = None ->
                      alias_part_of "my-schnell-dev-fill" b' -> priority b <= priority b')
       /\ StronglySorted by_priority base_models
       /\ (forall m, In m base_models <-> In m (values AVAILABLE_MODELS) /\ base_model m = None)
       /\ (forall k, filter (fun m => priority m =? k) base_models
                     = filter (fun m => priority m =? k)
                         (filter is_base (values AVAILABLE_MODELS))).
Proof.
  intros schnell_record.
  assert (E : find (names_base "my-schnell-dev-fill") base_models = None) by reflexivity.
  assert (I : In schnell_record (values AVAILABLE_MODELS)) by (simpl; left; reflexivity).
  assert (N : base_model schnell_record = None) by reflexivity.
  assert (P : alias_part_of "my-schnell-dev-fill" schnell_record).
  { exists "schnell". split; [reflexivity |]. split; [discriminate |].
    exists "my-", "-dev-fill". reflexivity. }
  repeat (split; [assumption |]).
  exact (from_name_infers_in_priority_order "my-schnell-dev-fill" schnell_record E I N P).
Defined.

(** ** Hint validation *)

(** C4, as stated, fails: the empty string is a hint that equals no alias and
    no model name of a base, yet [from_name("custom", "")] does not raise
    [InvalidBaseModel]; the empty string is falsy, the validation is skipped
    and the name goes to substring inference. *)
Lemma from_name_empty_hint_not_invalid :
  find (names_base "custom") base_models = None
  /\ (forall b, In b (values AVAILABLE_MODELS) -> base_model b = None ->
                alias b <> Some EmptyString /\ model_name b <> EmptyString)
  /\ from_name "custom" (Some EmptyString)
     = Raise (ModelConfigError "Cannot infer base_model from custom")
  /\ forall msg, from_name "custom" (Some EmptyString) <> Raise (InvalidBaseModel msg).
Proof.
  split; [reflexivity |]. split.
  - intros b I _. each_record I. all: split; discriminate.
  - split; [reflexivity |]. intros msg. vm_compute. discriminate.
Qed.

(** C4, amended. If the requested name is no exact match and a non-empty hint
    is supplied that equals no base model's alias and no base model's
    model name, [from_name] raises [InvalidBaseModel]; the message is the
    same on every such call and lists the alias and the model name of each
    base, in ascending priority order. *)
Theorem from_name_invalid_hint (name h : string) :
  find (names_base name) base_models = None ->
  h <> EmptyString ->
  (forall b, In b (values AVAILABLE_MODELS) -> base_model b = None ->
             alias b <> Some h /\ model_name b <> h) ->
  from_name name (Some h)
  = Raise (InvalidBaseModel
      "Invalid base_model. Choose one of ['dev-fill', 'black-forest-labs/FLUX.1-Fill-dev', 'dev', 'black-forest-labs/FLUX.1-dev', 'schnell', 'black-forest-labs/FLUX.1-schnell', 'dev-redux', 'black-forest-labs/FLUX.1-Redux-dev', 'dev-depth', 'black-forest-labs/FLUX.1-Depth-dev', 'dev-controlnet-canny', 'black-forest-labs/FLUX.1-dev', 'schnell-controlnet-canny', 'black-forest-labs/FLUX.1-schnell', 'dev-controlnet-upscaler', 'black-forest-labs/FLUX.1-dev', 'f-lite', 'cocktailpeanut/xulf-d', 'xulf-s', 'cocktailpeanut/xulf-s', 'f-lite', 'Freepik/flux.1-lite-8B', 'shuttle-3', 'shuttleai/shuttle-3-diffusion']")
  /\ from_name name (Some h)
     = Raise (InvalidBaseModel
         ("Invalid base_model. Choose one of "
          ++ Py.repr_list (flat_map (fun b => [alias b; Some (model_name b)]) base_models)))
  /\ StronglySorted by_priority base_models.
Proof.
  intros E N A.
  assert (R : from_name name (Some h)
              = Raise (InvalidBaseModel
                  ("Invalid base_model. Choose one of "
                   ++ Py.repr_list (allowed_names base_models)))).
  { apply (from_name_in_invalid AVAILABLE_MODELS name h E N).
    intros M. apply allowed_names_In in M. destruct M as [b [I F]].
    apply base_models_In in I. destruct I as [I B].
    apply names_base_iff in F. destruct (A b I B) as [A1 A2].
    destruct F as [F | F]; [apply A1 | apply A2]; exact F. }
  split; [| split; [exact R | exact base_models_sorted]].
  rewrite R. reflexivity.
Qed.

Lemma from_name_invalid_hint_witness :
  find (names_base "custom") base_models = None
  /\ "not-a-real-model" <> EmptyString
  /\ (forall b, In b (values AVAILABLE_MODELS) -> base_model b = None ->
                alias b <> Some "not-a-real-model" /\ model_name b <> "not-a-real-model")
  /\ from_name "custom" (Some "not-a-real-model")
     = Raise (InvalidBaseModel
         ("Invalid base_model. Choose one of "
          ++ Py.repr_list (flat_map (fun b => [alias b; Some (model_name b)]) base_models))).
Proof.
  assert (E : find (names_base "custom") base_models = None) by reflexivity.
  assert (N : "not-a-real-model" <> EmptyString) by discriminate.
  assert (A : forall b, In b (values AVAILABLE_MODELS) -> base_model b = None ->
                alias b <> Some "not-a-real-model" /\ model_name b <> "not-a-real-model").
  { intros b I _. each_record I. all: split; discriminate. }
  repeat (split; [assumption |]).
  exact (proj1 (proj2 (from_name_invalid_hint "custom" "not-a-real-model" E N A))).
Defined.

(** ** Failed inference *)

(** With a falsy hint, a name that is no exact match and holds no alias of a
    base ends in the inference error. *)
Lemma from_name_no_alias_within (name : string) (hint : option string) :
  Py.truthy hint = false ->
  find (names_base name) base_models = None ->
  (forall b a, In b (values AVAILABLE_MODELS) -> base_model b = None ->
               alias b = Some a -> ~ exists p q, name = p ++ a ++ q) ->
  from_name name hint = Raise (ModelConfigError ("Cannot infer base_model from " ++ name)).
Proof.
  intros T E A.
  unfold from_name. rewrite (from_name_in_infer AVAILABLE_MODELS name hint E T).
  fold base_models.
  replace (find (alias_within name) base_models) with (@None ModelConfig); [reflexivity |].
  symmetry. apply find_none_iff. intros b I.
  apply base_models_In in I. destruct I as [I B].
  destruct (alias_within name b) eqn:W; [| reflexivity].
  apply alias_within_iff in W. destruct W as [a [Ea [_ C]]].
  destruct (A b a I B Ea C).
Qed.

(** C5. If the requested name is no exact match, no hint is given and no base
    model's alias is a substring of the name, [from_name] raises
    [ModelConfigError] with a message that reports the name; that error is
    not an [InvalidBaseModel]. *)
Theorem from_name_cannot_infer (name : string) :
  find (names_base name) base_models = None ->
  (forall b a, In b (values AVAILABLE_MODELS) -> base_model b = None ->
               alias b = Some a -> ~ exists p q, name = p ++ a ++ q) ->
  from_name name None = Raise (ModelConfigError ("Cannot infer base_model from " ++ name))
  /\ forall msg, from_name name None <> Raise (InvalidBaseModel msg).
Proof.
  intros E A.
  rewrite (from_name_no_alias_within name None eq_refl E A).
  split; [reflexivity |]. intros msg. discriminate.
Qed.

(** No alias of the table occurs in the name, checked by running [in]. *)
Lemma no_alias_within (name : string) :
  forallb (fun b => match alias b with
                    | Some a => negb (Py.contains a name)
                    | None => true
                    end) (values AVAILABLE_MODELS) = true ->
  forall b a, In b (values AVAILABLE_MODELS) -> base_model b = None ->
              alias b = Some a -> ~ exists p q, name = p ++ a ++ q.
Proof.
  intros F b a I _ Ea C. rewrite forallb_forall in F. specialize (F b I).
  rewrite Ea in F. apply PyFacts.contains_iff in C. rewrite C in F. discriminate F.
Qed.

Lemma from_name_cannot_infer_witness :
  find (names_base "unrecognizable-name") base_models = None
  /\ (forall b a, In b (values AVAILABLE_MODELS) -> base_model b = None ->
                  alias b = Some a -> ~ exists p q, "unrecognizable-name" = p ++ a ++ q)
  /\ from_name "unrecognizable-name" None
     = Raise (ModelConfigError "Cannot infer base_model from unrecognizable-name").
Proof.
  assert (E : find (names_base "unrecognizable-name") base_models = None) by reflexivity.
  assert (A : forall b a, In b (values AVAILABLE_MODELS) -> base_model b = None ->
                alias b = Some a -> ~ exists p q, "unrecognizable-name" = p ++ a ++ q)
    by (apply no_alias_within; reflexivity).
  repeat (split; [assumption |]).
  exact (proj1 (from_name_cannot_infer "unrecognizable-name" E A)).
Defined.

(** ** Aliases of the table *)

(** C6 does not hold of the table: the entries declared under the keys
    [xulf-d] and [f-lite] are two different records with the same alias
    [f-lite]. The key [xulf-d] then names no base that [from_name] knows, and
    the alias [f-lite] resolves to the record declared under [xulf-d]. *)
Theorem alias_f_lite_declared_twice :
  let xulf_d := mkModelConfig (Some "f-lite") "cocktailpeanut/xulf-d"
                  None None 1000 512 true true 8 in
  let f_lite := mkModelConfig (Some "f-lite") "Freepik/flux.1-lite-8B"
                  None None 1000 512 true true 10 in
  lookup "xulf-d" AVAILABLE_MODELS = Some xulf_d
  /\ lookup "f-lite" AVAILABLE_MODELS = Some f_lite
  /\ xulf_d <> f_lite
  /\ alias xulf_d = Some "f-lite"
  /\ alias f_lite = Some "f-lite"
  /\ from_name "xulf-d" None = Raise (ModelConfigError "Cannot infer base_model from xulf-d")
  /\ from_name "f-lite" None = Return xulf_d.
Proof.
  intros xulf_d f_lite.
  split; [reflexivity |]. split; [reflexivity |].
  split; [discriminate |]. repeat split.
Qed.

(** Every other entry is declared under its own alias. *)
Lemma alias_is_key_but_xulf_d (k : string) (m : ModelConfig) :
  In (k, m) AVAILABLE_MODELS -> k <> "xulf-d" -> alias m = Some k.
Proof.
  intros I K. simpl in I.
  repeat (destruct I as [[= <- <-] | I]); try reflexivity; contradiction.
Qed.

(** Apart from that pair the aliases of the table are pairwise different. *)
Lemma alias_unique_but_f_lite (B1 B2 : ModelConfig) :
  In B1 (values AVAILABLE_MODELS) -> In B2 (values AVAILABLE_MODELS) ->
  alias B1 = alias B2 -> alias B1 <> Some "f-lite" -> B1 = B2.
Proof.
  intros I1 I2. each_record I1. all: each_record I2.
  all: intros E N; try reflexivity; try discriminate E.
  all: exfalso; apply N; reflexivity.
Qed.

(** ** Selection by hint *)

(** C7. With a hint that passed validation and a name that is no exact match,
    the selected base is the first base, in ascending priority order, whose
    alias or model name equals the hint; it is fixed by the hint alone, the
    same for every requested name. *)
Theorem from_name_hint_selects (h : string) :
  In (Some h) (allowed_names base_models) ->
  exists b,
    first_match (names_base h) base_models b
    /\ (alias b = Some h \/ model_name b = h)
    /\ (forall b', In b' base_models -> alias b' = Some h \/ model_name b' = h ->
                   priority b <= priority b')
    /\ forall name, find (names_base name) base_models = None ->
                    from_name name (Some h) = Return (construct b name).
Proof.
  intros A.
  assert (N : h <> EmptyString).
  { intros ->. exact (allowed_names_nonempty A). }
  pose proof A as M. apply allowed_names_In in M. destruct M as [b0 [I0 F0]].
  destruct (find_is_Some _ _ _ I0 F0) as [b Fb].
  exists b. pose proof Fb as FM. apply find_first_match in FM.
  split; [exact FM |]. split.
  { destruct FM as [_ [_ [_ [Nb _]]]]. apply names_base_iff. exact Nb. }
  split.
  { intros b' I' N'.
    apply (first_match_least (names_base h) base_models b base_models_sorted FM b' I').
    apply names_base_iff. exact N'. }
  intros name E. unfold from_name.
  destruct (from_name_in_hint AVAILABLE_MODELS name h E N A) as [b' [Fb' ->]].
  fold base_models in Fb'. congruence.
Qed.

Lemma from_name_hint_selects_witness :
  In (Some "dev") (allowed_names base_models)
  /\ exists b,
       first_match (names_base "dev") base_models b
       /\ (alias b = Some "dev" \/ model_name b = "dev")
       /\ (forall b', In b' base_models -> alias b' = Some "dev" \/ model_name b' = "dev" ->
                      priority b <= priority b')
       /\ forall name, find (names_base name) base_models = None ->
                       from_name name (Some "dev") = Return (construct b name).
Proof.
  assert (A : In (Some "dev") (allowed_names base_models)) by in_closed_list.
  split; [exact A |].
  exact (from_name_hint_selects "dev" A).
Defined.

(** [from_name("custom", "dev")]: the base is the record of alias [dev]. *)
Example from_name_custom_dev :
  from_name "custom" (Some "dev")
  = Return (mkModelConfig (Some "dev") "custom" (Some "black-forest-labs/FLUX.1-dev")
              None 1000 512 true true 1).
Proof. reflexivity. Qed.

(** The name holds the alias [schnell], the hint says [dev]: the hint wins. *)
Example from_name_hint_over_substring :
  from_name "my-schnell-tune" (Some "dev")
  = Return (mkModelConfig (Some "dev") "my-schnell-tune" (Some "black-forest-labs/FLUX.1-dev")
              None 1000 512 true true 1).
Proof. reflexivity. Qed.

(** ** The input dimension of the embedder *)

(** C8. For every record, from the table or synthesized,
    [x_embedder_input_dim] is 384 when the alias is [dev-fill], 128 when it is
    [dev-depth] and 64 for any other alias, [None] included. *)
Theorem x_embedder_input_dim_by_alias (self : ModelConfig) :
  (alias self = Some "dev-fill" -> x_embedder_input_dim self = 384)
  /\ (alias self = Some "dev-depth" -> x_embedder_input_dim self = 128)
  /\ (alias self <> Some "dev-fill" -> alias self <> Some "dev-depth" ->
      x_embedder_input_dim self = 64)
  /\ (alias self = None -> x_embedder_input_dim self = 64).
Proof.
  unfold x_embedder_input_dim. repeat split.
  - intros ->. reflexivity.
  - intros ->. reflexivity.
  - intros F D. apply PyFacts.opt_eqb_false in F, D. rewrite F, D. reflexivity.
  - intros ->. reflexivity.
Qed.

Lemma x_embedder_input_dim_by_alias_witness :
  let fill := construct (mkModelConfig (Some "dev-fill") "black-forest-labs/FLUX.1-Fill-dev"
                           None None 1000 512 true true 0) "my-dev-fill-tune" in
  let depth := mkModelConfig (Some "dev-depth") "black-forest-labs/FLUX.1-Depth-dev"
                 None None 1000 512 true true 4 in
  let other := mkModelConfig (Some "schnell") "black-forest-labs/FLUX.1-schnell"
                 None None 1000 256 false false 2 in
  let anonymous := mkModelConfig None "some/model" None None 1000 256 false false 0 in
  x_embedder_input_dim fill = 384
  /\ x_embedder_input_dim depth = 128
  /\ x_embedder_input_dim other = 64
  /\ x_embedder_input_dim anonymous = 64.
Proof.
  intros fill depth other anonymous. split; [| split; [| split]].
  - apply (proj1 (x_embedder_input_dim_by_alias fill)). reflexivity.
  - apply (proj1 (proj2 (x_embedder_input_dim_by_alias depth))). reflexivity.
  - apply (proj1 (proj2 (proj2 (x_embedder_input_dim_by_alias other)))); discriminate.
  - apply (proj2 (proj2 (proj2 (x_embedder_input_dim_by_alias anonymous)))). reflexivity.
Defined.

(** ** Order of the checks *)

(** Step 1 comes before the validation of the hint: for the alias or the
    model name of any base, and any hint, [from_name] returns what it returns
    with no hint, the first base of that alias or model name, and raises
    nothing. *)
Lemma from_name_exact_before_validation (B : ModelConfig) (name : string) (hint : option string) :
  In B (values AVAILABLE_MODELS) -> base_model B = None ->
  alias B = Some name \/ model_name B = name ->
  exists R, from_name name hint = Return R
    /\ from_name name None = Return R
    /\ first_match (names_base name) base_models R
    /\ priority R <= priority B.
Proof.
  intros I N A.
  assert (J : In B base_models) by (apply base_models_In; split; assumption).
  apply names_base_iff in A.
  destruct (find_is_Some _ _ _ J A) as [R F].
  exists R. unfold from_name.
  rewrite (from_name_in_exact AVAILABLE_MODELS name hint R F).
  rewrite (from_name_in_exact AVAILABLE_MODELS name None R F).
  apply find_first_match in F. repeat split; [exact F |].
  exact (first_match_least (names_base name) base_models R base_models_sorted F B J A).
Qed.

(** C9 does not hold of the entry declared under the key [f-lite]: resolving
    its alias, here with a hint that names no base, raises nothing but returns
    the record declared under [xulf-d], which carries the same alias and comes
    first in priority order. *)
Theorem from_name_f_lite_returns_xulf_d :
  let xulf_d := mkModelConfig (Some "f-lite") "cocktailpeanut/xulf-d"
                  None None 1000 512 true true 8 in
  let f_lite := mkModelConfig (Some "f-lite") "Freepik/flux.1-lite-8B"
                  None None 1000 512 true true 10 in
  lookup "f-lite" AVAILABLE_MODELS = Some f_lite
  /\ base_model f_lite = None
  /\ alias f_lite = Some "f-lite"
  /\ ~ In (Some "not-a-real-model") (allowed_names base_models)
  /\ from_name "f-lite" (Some "not-a-real-model") = Return xulf_d
  /\ xulf_d <> f_lite.
Proof.
  intros xulf_d f_lite.
  repeat (split; [reflexivity |]). split.
  - rewrite <- PyFacts.mem_iff. vm_compute. discriminate.
  - split; [reflexivity | discriminate].
Qed.

(** ** The empty hint *)

(** C10. With the empty string as hint [from_name] does what it does with no
    hint: it never raises [InvalidBaseModel] for it, it infers the base from
    the name, and raises [ModelConfigError] when no base alias is a substring
    of the name. *)
Theorem from_name_empty_hint (name : string) :
  from_name name (Some EmptyString) = from_name name None
  /\ (forall msg, from_name name (Some EmptyString) <> Raise (InvalidBaseModel msg))
  /\ (find (names_base name) base_models = None ->
      from_name name (Some EmptyString)
      = match find (alias_within name) base_models with
        | Some b => Return (construct b name)
        | None => Raise (ModelConfigError ("Cannot infer base_model from " ++ name))
        end)
  /\ (find (names_base name) base_models = None ->
      (forall b a, In b (values AVAILABLE_MODELS) -> base_model b = None ->
                   alias b = Some a -> ~ exists p q, name = p ++ a ++ q) ->
      from_name name (Some EmptyString)
      = Raise (ModelConfigError ("Cannot infer base_model from " ++ name))).
Proof.
  assert (Q : from_name name (Some EmptyString) = from_name name None).
  { unfold from_name, from_name_in.
    destruct (find (names_base name) (base_models_of AVAILABLE_MODELS)); reflexivity. }
  split; [exact Q |]. split; [| split].
  - intros msg. rewrite Q. unfold from_name.
    destruct (find (names_base name) (base_models_of AVAILABLE_MODELS)) as [b|] eqn:E.
    + rewrite (from_name_in_exact AVAILABLE_MODELS name None b E). discriminate.
    + rewrite (from_name_in_infer AVAILABLE_MODELS name None E eq_refl).
      destruct (find (alias_within name) (base_models_of AVAILABLE_MODELS)); discriminate.
  - intros E. unfold from_name.
    exact (from_name_in_infer AVAILABLE_MODELS name (Some EmptyString) E eq_refl).
  - intros E A. exact (from_name_no_alias_within name (Some EmptyString) eq_refl E A).
Qed.

Lemma from_name_empty_hint_witness :
  from_name "my-dev-tune" (Some EmptyString) = from_name "my-dev-tune" None
  /\ find (names_base "unrecognizable-name") base_models = None
  /\ from_name "unrecognizable-name" (Some EmptyString)
     = Raise (ModelConfigError "Cannot infer base_model from unrecognizable-name").
Proof.
  split; [exact (proj1 (from_name_empty_hint "my-dev-tune")) |].
  assert (E : find (names_base "unrecognizable-name") base_models = None) by reflexivity.
  split; [exact E |].
  apply (proj2 (proj2 (proj2 (from_name_empty_hint "unrecognizable-name"))) E).
  apply no_alias_within. reflexivity.
Defined.

(** * Further properties of the resolver *)

(** ** What a call can end in *)

Lemma string_append_assoc (a b c : string) : (a ++ b) ++ c = a ++ b ++ c.
Proof.
  induction a as [|x a IH]; simpl; [reflexivity | rewrite IH; reflexivity].
Qed.

(** [in] on strings is transitive. *)
Lemma contains_trans (a b s : string) :
  Py.contains a b = true -> Py.contains b s = true -> Py.contains a s = true.
Proof.
  rewrite !PyFacts.contains_iff. intros [p' [q' ->]] [p [q ->]].
  exists (p ++ p'), (q' ++ q).
  rewrite !string_append_assoc. reflexivity.
Qed.

(** The ways [from_name] returns a record: the base found by step 1, or the
    record built from the base that the hint names or that the name holds. *)
Lemma from_name_Return_inv (name : string) (hint : option string) (r : ModelConfig) :
  from_name name hint = Return r ->
  find (names_base name) base_models = Some r
  \/ (find (names_base name) base_models = None
      /\ exists b, r = construct b name
         /\ ((exists h, hint = Some h /\ h <> EmptyString
                        /\ find (names_base h) base_models = Some b)
             \/ (Py.truthy hint = false
                 /\ find (alias_within name) base_models = Some b))).
Proof.
  intros H. unfold from_name, from_name_in in H. cbv zeta in H.
  fold base_models in H.
  destruct (find (names_base name) base_models) as [b0|] eqn:E.
  - injection H as ->. left. reflexivity.
  - right. split; [reflexivity |].
    destruct (Py.truthy hint) eqn:T.
    + destruct hint as [h|]; [| discriminate T].
      destruct (Py.mem (Some h) (allowed_names base_models)); cbn [andb negb] in H;
        [| discriminate H].
      change (hint_names_base (Some h)) with (names_base h) in H.
      destruct (find (names_base h) base_models) as [b|] eqn:F; [| discriminate H].
      injection H as <-. exists b. split; [reflexivity |]. left.
      exists h. apply PyFacts.truthy_Some in T. repeat split; assumption.
    + cbn [andb] in H.
      destruct (find (alias_within name) base_models) as [b|] eqn:F; [| discriminate H].
      injection H as <-. exists b. split; [reflexivity |]. right. split; reflexivity.
Qed.


(** The five paths through [from_name], each with the tests that lead to it. *)
Lemma from_name_cases (name : string) (hint : option string) :
  (exists b, find (names_base name) base_models = Some b
             /\ from_name name hint = Return b)
  \/ (find (names_base name) base_models = None
      /\ ((exists h, hint = Some h /\ h <> EmptyString
                     /\ ~ In (Some h) (allowed_names base_models)
                     /\ from_name name hint
                        = Raise (InvalidBaseModel
                                   ("Invalid base_model. Choose one of "
                                    ++ Py.repr_list (allowed_names base_models))))
          \/ (exists h b, hint = Some h /\ h <> EmptyString
                          /\ In (Some h) (allowed_names base_models)
                          /\ find (names_base h) base_models = Some b
                          /\ from_name name hint = Return (construct b name))
          \/ (Py.truthy hint = false
              /\ exists b, find (alias_within name) base_models = Some b
                           /\ from_name name hint = Return (construct b name))
          \/ (Py.truthy hint = false
              /\ find (alias_within name) base_models = None
              /\ from_name name hint
                 = Raise (ModelConfigError ("Cannot infer base_model from " ++ name))))).
Proof.
  unfold from_name.
  destruct (find (names_base name) base_models) as [b|] eqn:E.
  - left. exists b. split; [reflexivity |]. apply from_name_in_exact. exact E.
  - right. split; [reflexivity |].
    destruct (Py.truthy hint) eqn:T.
    + destruct hint as [h|]; [| discriminate T].
      apply PyFacts.truthy_Some in T.
      destruct (Py.mem (Some h) (allowed_names base_models)) eqn:M.
      * apply PyFacts.mem_iff in M.
        destruct (from_name_in_hint AVAILABLE_MODELS name h E T M) as [b [F R]].
        right. left. exists h, b. repeat split; assumption.
      * assert (A : ~ In (Some h) (allowed_names base_models))
          by (rewrite <- PyFacts.mem_iff; congruence).
        left. exists h. repeat split; try assumption.
        apply from_name_in_invalid; assumption.
    + rewrite (from_name_in_infer AVAILABLE_MODELS name hint E T). fold base_models.
      destruct (find (alias_within name) base_models) as [b|].
      * right. right. left. split; [reflexivity |]. exists b. split; reflexivity.
      * right. right. right. repeat split.
Qed.

(** A string is outside the allowed names when no base has it as alias or as
    model name. *)
Lemma not_allowed_iff (h : string) :
  ~ In (Some h) (allowed_names base_models) <->
  forall b, In b (values AVAILABLE_MODELS) -> base_model b = None ->
            alias b <> Some h /\ model_name b <> h.
Proof.
  rewrite allowed_names_In. split.
  - intros N b I B. split; intros F; apply N; exists b;
      (split; [apply base_models_In; split; assumption |]);
      apply names_base_iff; [left | right]; exact F.
  - intros A [b [I F]]. apply base_models_In in I. destruct I as [I B].
    apply names_base_iff in F. destruct (A b I B) as [A1 A2].
    destruct F as [F | F]; [exact (A1 F) | exact (A2 F)].
Qed.

(** No alias of the table is empty. *)
Lemma alias_nonempty (b : ModelConfig) (a : string) :
  In b (values AVAILABLE_MODELS) -> alias b = Some a -> a <> EmptyString.
Proof.
  intros I. each_record I. all: intros [= <-]; discriminate.
Qed.

(** The scan of the inference finds nothing exactly when no alias of a base
    occurs in the name. *)
Lemma infer_none_iff (name : string) :
  find (alias_within name) base_models = None <->
  forall b a, In b (values AVAILABLE_MODELS) -> base_model b = None ->
              alias b = Some a -> ~ exists p q, name = p ++ a ++ q.
Proof.
  rewrite find_none_iff. split.
  - intros N b a I B Ea C.
    assert (W : alias_within name b = true).
    { apply alias_within_iff. exists a. repeat split; try assumption.
      exact (alias_nonempty b a I Ea). }
    rewrite (N b) in W; [discriminate W | apply base_models_In; split; assumption].
  - intros A b I. apply base_models_In in I. destruct I as [I B].
    destruct (alias_within name b) eqn:W; [| reflexivity].
    apply alias_within_iff in W. destruct W as [a [Ea [_ C]]].
    destruct (A b a I B Ea C).
Qed.

(** X2. [from_name] raises [InvalidBaseModel] exactly when the name is no
    exact match and the hint is a non-empty string that is neither the alias
    nor the model name of a base. *)
Theorem from_name_invalid_iff (name : string) (hint : option string) :
  (exists msg, from_name name hint = Raise (InvalidBaseModel msg))
  <-> (find (names_base name) base_models = None
       /\ exists h, hint = Some h /\ h <> EmptyString
            /\ forall b, In b (values AVAILABLE_MODELS) -> base_model b = None ->
                         alias b <> Some h /\ model_name b <> h).
Proof.
  split.
  - intros [msg R].
    destruct (from_name_cases name hint)
      as [[b [_ Q]] | [E [[h [Eh [N [A _]]]] | [[h [b [_ [_ [_ [_ Q]]]]]]
                                                | [[_ [b [_ Q]]] | [_ [_ Q]]]]]]];
      try (rewrite Q in R; discriminate R).
    split; [exact E |]. exists h.
    split; [exact Eh | split; [exact N | apply not_allowed_iff; exact A]].
  - intros [E [h [-> [N A]]]]. eexists.
    apply (from_name_in_invalid AVAILABLE_MODELS name h E N).
    apply not_allowed_iff. exact A.
Qed.

Lemma from_name_invalid_iff_witness :
  exists msg, from_name "my-dev-tune" (Some "flux") = Raise (InvalidBaseModel msg).
Proof.
  apply (proj2 (from_name_invalid_iff "my-dev-tune" (Some "flux"))).
  split; [reflexivity |]. exists "flux". split; [reflexivity |]. split; [discriminate |].
  intros b I _. each_record I. all: split; discriminate.
Defined.

(** X3. [from_name] raises [ModelConfigError] exactly when the name is no
    exact match, the hint is [None] or empty, and no alias of a base occurs in
    the name. *)
Theorem from_name_cannot_infer_iff (name : string) (hint : option string) :
  (exists msg, from_name name hint = Raise (ModelConfigError msg))
  <-> (find (names_base name) base_models = None
       /\ (hint = None \/ hint = Some EmptyString)
       /\ forall b a, In b (values AVAILABLE_MODELS) -> base_model b = None ->
                      alias b = Some a -> ~ exists p q, name = p ++ a ++ q).
Proof.
  split.
  - intros [msg R].
    destruct (from_name_cases name hint)
      as [[b [_ Q]] | [E [[h [_ [_ [_ Q]]]] | [[h [b [_ [_ [_ [_ Q]]]]]]
                                              | [[_ [b [_ Q]]] | [T [F _]]]]]]];
      try (rewrite Q in R; discriminate R).
    split; [exact E |]. split.
    + destruct hint as [h|]; [| left; reflexivity]. right.
      unfold Py.truthy in T. apply negb_false_iff, String.eqb_eq in T.
      rewrite T. reflexivity.
    + apply infer_none_iff. exact F.
  - intros [E [T A]]. eexists.
    apply (from_name_no_alias_within name hint); [| exact E | exact A].
    destruct T as [-> | ->]; reflexivity.
Qed.

Lemma from_name_cannot_infer_iff_witness :
  exists msg, from_name "stable-diffusion-xl" (Some EmptyString)
              = Raise (ModelConfigError msg).
Proof.
  apply (proj2 (from_name_cannot_infer_iff "stable-diffusion-xl" (Some EmptyString))).
  split; [reflexivity |]. split; [right; reflexivity |].
  apply no_alias_within. reflexivity.
Defined.

(** ** The records that come back *)

(** A returned record is a record of the table, or is built from one. *)
Lemma returned_from_base (name : string) (hint : option string) (r : ModelConfig) :
  from_name name hint = Return r ->
  exists b, In b (values AVAILABLE_MODELS)
            /\ (r = b \/ (find (names_base name) base_models = None
                          /\ r = construct b name)).
Proof.
  intros R. apply from_name_Return_inv in R.
  destruct R as [F | [E [b [-> [[h [_ [_ F]]] | [_ F]]]]]];
    apply find_some in F; destruct F as [I _];
    apply base_models_In in I; destruct I as [I _].
  - exists r. split; [exact I | left; reflexivity].
  - exists b. split; [exact I | right; split; [exact E | reflexivity]].
  - exists b. split; [exact I | right; split; [exact E | reflexivity]].
Qed.

(** X4. Every record that [from_name] returns has an alias, 1000 training
    steps, a maximal sequence length of 256 or 512, equal flags
    [supports_guidance] and [requires_sigma_shift], and a priority from 0 to
    11; its [base_model] is [None] when the name was an exact match, and
    otherwise the model name of a record of the table, with the requested name
    as [model_name]. *)
Theorem from_name_returns_well_formed (name : string) (hint : option string)
    (r : ModelConfig) :
  from_name name hint = Return r ->
  alias r <> None
  /\ num_train_steps r = 1000
  /\ (max_sequence_length r = 256 \/ max_sequence_length r = 512)
  /\ supports_guidance r = requires_sigma_shift r
  /\ 0 <= priority r <= 11
  /\ ((base_model r = None /\ find (names_base name) base_models = Some r)
      \/ (find (names_base name) base_models = None /\ model_name r = name
          /\ exists b, In b (values AVAILABLE_MODELS)
                       /\ base_model r = Some (model_name b))).
Proof.
  intros R.
  assert (Last : (base_model r = None /\ find (names_base name) base_models = Some r)
            \/ (find (names_base name) base_models = None /\ model_name r = name
                /\ exists b, In b (values AVAILABLE_MODELS)
                             /\ base_model r = Some (model_name b))).
  { pose proof R as Q. apply from_name_Return_inv in Q.
    destruct Q as [F | [E [b [-> [[h [_ [_ F]]] | [_ F]]]]]].
    - left. split; [| exact F]. apply find_some in F. destruct F as [I _].
      apply base_models_In in I. apply I.
    - right. split; [exact E |]. split; [reflexivity |]. exists b.
      apply find_some in F. destruct F as [I _]. apply base_models_In in I.
      split; [apply I | reflexivity].
    - right. split; [exact E |]. split; [reflexivity |]. exists b.
      apply find_some in F. destruct F as [I _]. apply base_models_In in I.
      split; [apply I | reflexivity]. }
  destruct (returned_from_base name hint r R) as [b [I S]].
  assert (Fields : alias r = alias b /\ num_train_steps r = num_train_steps b
                   /\ max_sequence_length r = max_sequence_length b
                   /\ supports_guidance r = supports_guidance b
                   /\ requires_sigma_shift r = requires_sigma_shift b
                   /\ priority r = priority b).
  { destruct S as [-> | [_ ->]]; repeat split. }
  destruct Fields as [-> [-> [-> [-> [-> ->]]]]]. clear S R.
  each_record I.
  all: split; [discriminate |].
  all: split; [reflexivity |].
  all: split; [first [left; reflexivity | right; reflexivity] |].
  all: split; [reflexivity |].
  all: split; [simpl; lia | exact Last].
Qed.

Lemma from_name_returns_well_formed_witness :
  let r := mkModelConfig (Some "schnell") "acme/schnell-lora"
             (Some "black-forest-labs/FLUX.1-schnell") None 1000 256 false false 2 in
  from_name "acme/schnell-lora" None = Return r
  /\ alias r <> None
  /\ num_train_steps r = 1000
  /\ (max_sequence_length r = 256 \/ max_sequence_length r = 512)
  /\ supports_guidance r = requires_sigma_shift r
  /\ 0 <= priority r <= 11.
Proof.
  intros r.
  assert (R : from_name "acme/schnell-lora" None = Return r) by reflexivity.
  split; [exact R |].
  destruct (from_name_returns_well_formed "acme/schnell-lora" None r R)
    as [A [T [M [G [P _]]]]].
  split; [exact A | split; [exact T | split; [exact M | split; [exact G | exact P]]]].
Defined.

(** ** What inference can select *)

(** If the alias of [x] occurs in the alias of [b], a name that holds the
    alias of [b] holds the alias of [x]. *)
Lemma alias_within_shadow (name : string) (x b : ModelConfig) :
  alias_within name b = true ->
  match alias x, alias b with
  | Some a', Some a => negb (a' =? EmptyString)%string && Py.contains a' a
  | _, _ => false
  end = true ->
  alias_within name x = true.
Proof.
  unfold alias_within. destruct (alias x) as [a'|], (alias b) as [a|];
    try discriminate.
  rewrite !andb_true_iff. intros [_ C] [N C']. split; [exact N |].
  exact (contains_trans a' a name C' C).
Qed.

(** Closes a goal in which the scan stopped at a record although the record
    [x], of a lower priority number, matches as well. *)
Ltac shadowed_by Least W x :=
  let L := fresh "L" in
  assert (L := Least x ltac:(apply base_models_In; split; [in_closed_list | reflexivity])
                 ltac:(apply (alias_within_shadow _ x _ W); reflexivity));
  vm_compute in L; apply L; reflexivity.

(** The bases that substring inference can stop at. *)
Lemma inferred_base (name : string) (b : ModelConfig) :
  find (alias_within name) base_models = Some b ->
  controlnet_model b = None
  /\ In (alias b, model_name b)
       [ (Some "dev-fill", "black-forest-labs/FLUX.1-Fill-dev");
         (Some "dev", "black-forest-labs/FLUX.1-dev");
         (Some "schnell", "black-forest-labs/FLUX.1-schnell");
         (Some "f-lite", "cocktailpeanut/xulf-d");
         (Some "xulf-s", "cocktailpeanut/xulf-s");
         (Some "shuttle-3", "shuttleai/shuttle-3-diffusion") ].
Proof.
  intros F.
  assert (Least := first_match_least (alias_within name) base_models b
                     base_models_sorted (proj1 (find_first_match _ _ _) F)).
  apply find_some in F. destruct F as [I W].
  apply base_models_In in I. destruct I as [I _]. each_record I.
  all: try (split; [reflexivity | in_closed_list]).
  all: exfalso.
  all: first
    [ shadowed_by Least W
        (mkModelConfig (Some "dev") "black-forest-labs/FLUX.1-dev"
           None None 1000 512 true true 1)
    | shadowed_by Least W
        (mkModelConfig (Some "schnell") "black-forest-labs/FLUX.1-schnell"
           None None 1000 256 false false 2)
    | shadowed_by Least W
        (mkModelConfig (Some "f-lite") "cocktailpeanut/xulf-d"
           None None 1000 512 true true 8) ].
Qed.

(** X5. When the name is no exact match and the hint is [None] or empty,
    the record that comes back is built from one of six bases only: [dev-fill],
    [dev], [schnell], the record of model name [cocktailpeanut/xulf-d],
    [xulf-s] or [shuttle-3]. A name that holds any other alias holds [dev],
    [schnell] or [f-lite] too, which come first; so inference never gives a
    ControlNet configuration, nor the input dimension 128 of [dev-depth]. *)
Theorem from_name_inference_reach (name : string) (hint : option string)
    (r : ModelConfig) :
  find (names_base name) base_models = None ->
  hint = None \/ hint = Some EmptyString ->
  from_name name hint = Return r ->
  In (alias r, base_model r)
    [ (Some "dev-fill", Some "black-forest-labs/FLUX.1-Fill-dev");
      (Some "dev", Some "black-forest-labs/FLUX.1-dev");
      (Some "schnell", Some "black-forest-labs/FLUX.1-schnell");
      (Some "f-lite", Some "cocktailpeanut/xulf-d");
      (Some "xulf-s", Some "cocktailpeanut/xulf-s");
      (Some "shuttle-3", Some "shuttleai/shuttle-3-diffusion") ]
  /\ controlnet_model r = None
  /\ is_canny r = false
  /\ x_embedder_input_dim r <> 128.
Proof.
  intros E T R. apply from_name_Return_inv in R.
  destruct R as [F | [_ [b [-> [[h [Eh [N _]]] | [_ F]]]]]].
  - congruence.
  - exfalso. destruct T as [T | T]; congruence.
  - destruct (inferred_base name b F) as [C I].
    unfold is_canny, x_embedder_input_dim. simpl alias. simpl base_model.
    simpl controlnet_model. simpl in I.
    destruct I as [I | [I | [I | [I | [I | [I | []]]]]]];
      injection I as Ha Hm; rewrite <- Ha, <- Hm.
    all: split; [in_closed_list |].
    all: split; [exact C |].
    all: split; [reflexivity | discriminate].
Qed.

Lemma from_name_inference_reach_witness :
  let r := mkModelConfig (Some "dev") "acme/dev-depth-lora"
             (Some "black-forest-labs/FLUX.1-dev") None 1000 512 true true 1 in
  find (names_base "acme/dev-depth-lora") base_models = None
  /\ from_name "acme/dev-depth-lora" None = Return r
  /\ controlnet_model r = None
  /\ is_canny r = false
  /\ x_embedder_input_dim r <> 128.
Proof.
  intros r.
  assert (E : find (names_base "acme/dev-depth-lora") base_models = None) by reflexivity.
  assert (R : from_name "acme/dev-depth-lora" None = Return r) by reflexivity.
  split; [exact E | split; [exact R |]].
  exact (proj2 (from_name_inference_reach "acme/dev-depth-lora" None r E
                  (or_introl eq_refl) R)).
Defined.

(** A string that names a base with a ControlNet model is its alias: as a
    model name it stops the scan at [dev] or [schnell] before. *)
Lemma named_controlnet (s : string) (b : ModelConfig) :
  find (names_base s) base_models = Some b ->
  controlnet_model b <> None -> alias b = Some s.
Proof.
  intros F C. pose proof F as G. apply find_some in G. destruct G as [I W].
  apply base_models_In in I. destruct I as [I _]. each_record I.
  all: try (exfalso; apply C; reflexivity).
  all: unfold names_base in W; simpl in W; apply orb_true_iff in W.
  all: destruct W as [W | W]; apply String.eqb_eq in W; subst s;
         [reflexivity | vm_compute in F; discriminate F].
Qed.

(** X6. A record with a ControlNet model comes back only when its alias was
    given in full, as the name or as the hint. *)
Theorem from_name_controlnet_needs_alias (name : string) (hint : option string)
    (r : ModelConfig) :
  from_name name hint = Return r ->
  controlnet_model r <> None ->
  alias r = Some name \/ hint = alias r.
Proof.
  intros R C. apply from_name_Return_inv in R.
  destruct R as [F | [_ [b [-> [[h [-> [_ F]]] | [_ F]]]]]].
  - left. exact (named_controlnet name r F C).
  - right. simpl. symmetry. exact (named_controlnet h b F C).
  - exfalso. apply C. exact (proj1 (inferred_base name b F)).
Qed.

Lemma from_name_controlnet_needs_alias_witness :
  let r := mkModelConfig (Some "dev-controlnet-canny") "acme/canny-tune"
             (Some "black-forest-labs/FLUX.1-dev")
             (Some "InstantX/FLUX.1-dev-Controlnet-Canny") 1000 512 true true 5 in
  from_name "acme/canny-tune" (Some "dev-controlnet-canny") = Return r
  /\ controlnet_model r <> None
  /\ (alias r = Some "acme/canny-tune" \/ Some "dev-controlnet-canny" = alias r).
Proof.
  intros r.
  assert (R : from_name "acme/canny-tune" (Some "dev-controlnet-canny") = Return r)
    by reflexivity.
  assert (C : controlnet_model r <> None) by discriminate.
  split; [exact R | split; [exact C |]].
  exact (from_name_controlnet_needs_alias "acme/canny-tune"
           (Some "dev-controlnet-canny") r R C).
Defined.

(** ** Resolving a resolved record again *)

(** X7. Take a record built for a custom name and resolve its [model_name]
    again with its [base_model] as hint: the answer is a record of the same
    [model_name] and [base_model] and with no ControlNet model. It is the
    record itself when that had no ControlNet model; a ControlNet model is
    lost, since the model name of such a base names [dev] or [schnell]
    first. *)
Theorem from_name_again (name : string) (hint : option string) (r : ModelConfig) :
  find (names_base name) base_models = None ->
  from_name name hint = Return r ->
  exists r', from_name (model_name r) (base_model r) = Return r'
    /\ model_name r' = model_name r
    /\ base_model r' = base_model r
    /\ controlnet_model r' = None
    /\ (controlnet_model r = None -> r' = r).
Proof.
  intros E R. apply from_name_Return_inv in R.
  destruct R as [F | [_ [b [-> S]]]]; [congruence |].
  assert (I : In b (values AVAILABLE_MODELS)).
  { destruct S as [[h [_ [_ F]]] | [_ F]];
      apply find_some in F; destruct F as [I _];
      apply base_models_In in I; apply I. }
  clear S. simpl model_name. simpl base_model. simpl controlnet_model.
  each_record I.
  all: match goal with
       | |- context [from_name ?n (Some ?h)] =>
           destruct (from_name_in_hint AVAILABLE_MODELS n h E
                       ltac:(discriminate) ltac:(in_closed_list)) as [b' [Fb R']]
       end.
  all: vm_compute in Fb; injection Fb as <-.
  all: eexists; split; [exact R' |].
  all: split; [reflexivity |].
  all: split; [reflexivity |].
  all: split; [reflexivity |].
  all: intros C; first [reflexivity | discriminate C].
Qed.

Lemma from_name_again_witness :
  let r := mkModelConfig (Some "dev-controlnet-upscaler") "acme/upscaler-tune"
             (Some "black-forest-labs/FLUX.1-dev")
             (Some "jasperai/Flux.1-dev-Controlnet-Upscaler") 1000 512 false false 7 in
  find (names_base "acme/upscaler-tune") base_models = None
  /\ from_name "acme/upscaler-tune" (Some "dev-controlnet-upscaler") = Return r
  /\ exists r', from_name (model_name r) (base_model r) = Return r'
       /\ model_name r' = model_name r
       /\ base_model r' = base_model r
       /\ controlnet_model r' = None
       /\ (controlnet_model r = None -> r' = r).
Proof.
  intros r.
  assert (E : find (names_base "acme/upscaler-tune") base_models = None) by reflexivity.
  assert (R : from_name "acme/upscaler-tune" (Some "dev-controlnet-upscaler") = Return r)
    by reflexivity.
  split; [exact E | split; [exact R |]].
  exact (from_name_again "acme/upscaler-tune" (Some "dev-controlnet-upscaler") r E R).
Defined.

(** ** The derived queries on returned records *)

(** X8. On every record that [from_name] returns, [is_canny] holds exactly
    when the ControlNet model is the Canny one; and then the input dimension
    of the embedder is 64. *)
Theorem is_canny_of_returned (name : string) (hint : option string) (r : ModelConfig) :
  from_name name hint = Return r ->
  (is_canny r = true
   <-> controlnet_model r = Some "InstantX/FLUX.1-dev-Controlnet-Canny")
  /\ (is_canny r = true -> x_embedder_input_dim r = 64).
Proof.
  intros R. destruct (returned_from_base name hint r R) as [b [I S]].
  assert (Q : is_canny r = is_canny b /\ controlnet_model r = controlnet_model b
              /\ x_embedder_input_dim r = x_embedder_input_dim b).
  { destruct S as [-> | [_ ->]]; repeat split. }
  destruct Q as [-> [-> ->]]. clear S R. each_record I.
  all: split; [split; intros H; first [reflexivity | discriminate H] |].
  all: intros H; first [reflexivity | discriminate H].
Qed.

Lemma is_canny_of_returned_witness :
  let r := mkModelConfig (Some "schnell-controlnet-canny") "acme/edges"
             (Some "black-forest-labs/FLUX.1-schnell")
             (Some "InstantX/FLUX.1-dev-Controlnet-Canny") 1000 256 false false 6 in
  from_name "acme/edges" (Some "schnell-controlnet-canny") = Return r
  /\ is_canny r = true
  /\ x_embedder_input_dim r = 64.
Proof.
  intros r.
  assert (R : from_name "acme/edges" (Some "schnell-controlnet-canny") = Return r)
    by reflexivity.
  destruct (is_canny_of_returned "acme/edges" (Some "schnell-controlnet-canny") r R)
    as [[_ K] D].
  assert (C : is_canny r = true) by (apply K; reflexivity).
  split; [exact R | split; [exact C | exact (D C)]].
Defined.

(** ** Keys and accessors *)

(** X9. None of the eight accessors meets a missing key; each returns the
    base model whose alias is its key, the record that [from_name] returns for
    that key whatever the hint. *)
Theorem accessors_agree_with_from_name :
  Forall (fun p : string * option ModelConfig =>
            exists r, snd p = Some r
                      /\ alias r = Some (fst p) /\ base_model r = None
                      /\ forall hint, from_name (fst p) hint = Return r)
    [ ("dev", dev); ("dev-fill", dev_fill); ("dev-depth", dev_depth);
      ("dev-redux", dev_redux); ("dev-controlnet-canny", dev_controlnet_canny);
      ("schnell-controlnet-canny", schnell_controlnet_canny);
      ("dev-controlnet-upscaler", dev_controlnet_upscaler); ("schnell", schnell) ].
Proof.
  repeat (apply Forall_cons;
          [eexists; split; [reflexivity |]; split; [reflexivity |];
           split; [reflexivity |]; intros hint;
           apply from_name_in_exact; reflexivity |]).
  apply Forall_nil.
Qed.



(** ** The order of the declarations *)

Lemma filter_perm (f : ModelConfig -> bool) (l l' : list ModelConfig) :
  Permutation l l' -> Permutation (filter f l) (filter f l').
Proof.
  induction 1 as [| x l l' _ IH | x y l | l l' l'' _ IH1 _ IH2]; simpl.
  - apply perm_nil.
  - destruct (f x); [apply perm_skip |]; exact IH.
  - destruct (f x), (f y); try apply Permutation_refl. apply perm_swap.
  - eapply perm_trans; eassumption.
Qed.

(** Two lists sorted by priority that hold the same records, no two of one
    priority, are the same list. *)
Lemma sorted_perm_unique (l1 : list ModelConfig) :
  forall l2, StronglySorted by_priority l1 -> StronglySorted by_priority l2 ->
             Permutation l1 l2 -> NoDup (map priority l1) -> l1 = l2.
Proof.
  induction l1 as [|x l1 IH]; intros l2 S1 S2 P N.
  - apply Permutation_nil in P. subst l2. reflexivity.
  - destruct l2 as [|y l2].
    { apply Permutation_sym, Permutation_nil in P. discriminate P. }
    inversion S1 as [|? ? S1' F1]; subst.
    inversion S2 as [|? ? S2' F2]; subst.
    inversion N as [|? ? NI N']; subst.
    assert (X : x = y).
    { rewrite Forall_forall in F1, F2.
      assert (Iy : In y (x :: l1)).
      { eapply Permutation_in; [apply Permutation_sym; exact P | left; reflexivity]. }
      assert (Ix : In x (y :: l2)).
      { eapply Permutation_in; [exact P | left; reflexivity]. }
      destruct Iy as [Iy | Iy]; [exact Iy |].
      destruct Ix as [Ix | Ix]; [symmetry; exact Ix |].
      exfalso. apply NI.
      assert (Q : priority x = priority y).
      { pose proof (F1 y Iy). pose proof (F2 x Ix). unfold by_priority in *. lia. }
      rewrite Q. apply in_map. exact Iy. }
    subst y. f_equal. apply IH; try assumption.
    eapply Permutation_cons_inv. exact P.
Qed.

(** Two tables with the same entries, where no two bases have one priority,
    have the same list of bases. *)
Lemma base_models_of_perm (d d' : list (string * ModelConfig)) :
  Permutation d d' ->
  NoDup (map priority (base_models_of d)) ->
  base_models_of d = base_models_of d'.
Proof.
  intros P N.
  apply sorted_perm_unique; try apply base_models_of_sorted; [| exact N].
  unfold base_models_of.
  eapply perm_trans; [apply Permutation_sym, sorted_by_priority_perm |].
  eapply perm_trans; [| apply sorted_by_priority_perm].
  apply filter_perm. unfold values. apply Permutation_map. exact P.
Qed.

(** X11. The priorities of the table are pairwise different, and all its
    records are base models; so the answer of [from_name] does not depend on
    the order in which the dict literal declares the entries: over the same
    entries in any other order the resolver returns and raises the same. *)
Theorem from_name_order_independent (d : list (string * ModelConfig))
    (name : string) (hint : option string) :
  Permutation d AVAILABLE_MODELS ->
  from_name_in d name hint = from_name name hint
  /\ base_models_of d = base_models
  /\ NoDup (map priority (values AVAILABLE_MODELS))
  /\ Permutation (values AVAILABLE_MODELS) base_models.
Proof.
  intros P.
  assert (N : NoDup (map priority base_models)).
  { vm_compute. repeat (constructor; [simpl; intuition discriminate |]). constructor. }
  assert (V : Permutation (values AVAILABLE_MODELS) base_models)
    by exact (sorted_by_priority_perm (values AVAILABLE_MODELS)).
  assert (Q : base_models_of d = base_models).
  { symmetry. exact (base_models_of_perm AVAILABLE_MODELS d (Permutation_sym P) N). }
  split; [| split; [exact Q | split; [| exact V]]].
  - unfold from_name, from_name_in. rewrite Q. reflexivity.
  - eapply Permutation_NoDup; [| exact N].
    apply Permutation_map, Permutation_sym, V.
Qed.

Lemma from_name_order_independent_witness :
  Permutation (rev AVAILABLE_MODELS) AVAILABLE_MODELS
  /\ from_name_in (rev AVAILABLE_MODELS) "acme/schnell-dev-mix" None
     = from_name "acme/schnell-dev-mix" None.
Proof.
  assert (P : Permutation (rev AVAILABLE_MODELS) AVAILABLE_MODELS)
    by (apply Permutation_sym, Permutation_rev).
  split; [exact P |].
  exact (proj1 (from_name_order_independent (rev AVAILABLE_MODELS)
                  "acme/schnell-dev-mix" None P)).
Defined.
